(** * A shallow embedding of the feathers-stripe service adapters

    Sources embedded:
    - [src/lib/services/transfer.js]: the legacy transfers [Service] and the
      [StripeAdapter] base class ([getLimit], [cleanQuery], [filterQuery],
      [handlePaginate], [handleError], [$patch], [$update], constructor);
    - [src/lib/services/price.js]: the prices [Service] (built on the
      adapter) and the legacy orders [Service].

    JavaScript values are modelled as a small JSON-like inductive type;
    numbers are integer valued ([Z]) plus [NaN].  Objects are association
    lists in property order; setting an existing property updates it in
    place, setting a new one appends it (JavaScript's order for keys that
    are not array indices).  The Stripe SDK is an abstract function from
    calls to promise outcomes. *)

From Stdlib Require Import ZArith String Ascii List Bool Lia.
Import ListNotations.
Open Scope string_scope.

(** ** JavaScript values *)

#[warnings="-register-all"]
Inductive jv : Type :=
| JUndef
| JNull
| JBool (b : bool)
| JNum (z : Z)
| JNaN
| JStr (s : string)
| JArr (items : list jv)
| JObj (props : list (string * jv)).

Definition obj := list (string * jv).

(** JavaScript truthiness. *)
Definition truthy (v : jv) : bool :=
  match v with
  | JUndef | JNull | JNaN => false
  | JBool b => b
  | JNum z => negb (Z.eqb z 0)
  | JStr s => negb (String.eqb s "")
  | JArr _ | JObj _ => true
  end.

(** [a || b] on values. *)
Definition js_or (a b : jv) : jv := if truthy a then a else b.

(** Property lookup on an object (first binding of the key). *)
Fixpoint obj_lookup (k : string) (o : obj) : option jv :=
  match o with
  | [] => None
  | (k', v) :: o' => if String.eqb k k' then Some v else obj_lookup k o'
  end.

(** [o[k]]: a missing property reads as [undefined]. *)
Definition obj_get (o : obj) (k : string) : jv :=
  match obj_lookup k o with Some v => v | None => JUndef end.

(** [o[k] = v]: update in place, or append a new property. *)
Fixpoint obj_set (k : string) (v : jv) (o : obj) : obj :=
  match o with
  | [] => [(k, v)]
  | (k', v') :: o' =>
      if String.eqb k k' then (k, v) :: o' else (k', v') :: obj_set k v o'
  end.

(** [delete o[k]]. *)
Definition obj_delete (k : string) (o : obj) : obj :=
  filter (fun p => negb (String.eqb k (fst p))) o.

(** Property read [v.k] on any value: [None] is the TypeError raised on
    [null] and [undefined]; other primitives have no own [type] field. *)
Definition prop (v : jv) (k : string) : option jv :=
  match v with
  | JUndef | JNull => None
  | JObj o => Some (obj_get o k)
  | _ => Some JUndef
  end.

(** Properties of an object-valued JSON entry, for reading results. *)
Definition jlookup (v : jv) (k : string) : option jv :=
  match v with JObj o => obj_lookup k o | _ => None end.

(** ** Errors, promises and completions *)

(** The [@feathersjs/errors] classes used by the code. *)
Inductive ferr : Type :=
| PaymentError | BadRequest | Unavailable | NotAuthenticated
| TooManyRequests | GeneralError | NotImplemented | MethodNotAllowed.

(** A rejection or exception reason: a feathers error built as
    [new errors.C(msg, data)], a plain [Error(msg)], a [TypeError], or any
    other value (a Stripe SDK error object, for instance). *)
Inductive err : Type :=
| FErr (c : ferr) (msg : jv) (data : jv)
| PlainError (msg : string)
| TypeErr
| Raw (e : jv).

(** Settled promise. *)
Inductive promise : Type :=
| Resolved (v : jv)
| Rejected (e : err).

(** The completion of a synchronous call: it returns or throws. *)
Inductive completion : Type :=
| Return (p : promise)
| Throw (e : err).

(** [p.catch(h)]: a handler that throws rejects the resulting promise. *)
Definition catch (p : promise) (h : err -> completion) : promise :=
  match p with
  | Resolved v => Resolved v
  | Rejected e =>
      match h e with
      | Return q => q
      | Throw e' => Rejected e'
      end
  end.

(** ** StripeAdapter.getLimit *)

(** The adapter's [options.paginate]: [None] when pagination is off
    ([false] or absent); the fields are [None] when undefined. *)
Record policy : Type := mkPolicy {
  pdefault : option Z;
  pmax : option Z
}.

Definition opt_truthy (o : option Z) : bool :=
  match o with Some z => negb (Z.eqb z 0) | None => false end.

(** [typeof limit === 'number' && !isNaN(limit)] *)
Definition is_number (v : jv) : option Z :=
  match v with JNum z => Some z | _ => None end.

(** [getLimit (limit, paramsPaginate)]; [Number.MAX_VALUE] is the absence
    of an upper bound, the result of [Math.min] is a number. *)
Definition getLimit (paginate : option policy) (limit paramsPaginate : jv) : jv :=
  match paramsPaginate with
  | JBool false => limit
  | _ =>
    match paginate with
    | Some p =>
      if opt_truthy (pdefault p) || opt_truthy (pmax p) then
        let base := match pdefault p with
                    | Some d => if negb (Z.eqb d 0) then d else 0%Z
                    | None => 0%Z
                    end in
        let lower := match is_number limit with Some l => l | None => base end in
        match pmax p with
        | Some m => JNum (Z.min lower m)
        | None => JNum lower
        end
      else limit
    | None => limit
    end
  end.


(** ** StripeAdapter.cleanQuery *)

(** [key.startsWith('$')] *)
Definition starts_dollar (k : string) : bool :=
  match k with
  | String c _ => Ascii.eqb c "$"%char
  | EmptyString => false
  end.

(** The forwarded key: [key.replace('$', '')] when the key starts with
    ['$'] (the first ['$'] is then the leading one), the key otherwise. *)
Definition clean_key (k : string) : string :=
  match k with
  | String c rest => if Ascii.eqb c "$"%char then rest else k
  | EmptyString => k
  end.

(** One iteration of the [forEach] over [Object.entries(result)]:
    [cv] is the already cleaned value. *)
Definition clean_step (k : string) (cv : jv) (result : obj) : obj :=
  if starts_dollar k then obj_set (clean_key k) cv (obj_delete k result)
  else obj_set k cv result.

(** The [forEach] loop over a snapshot [entries] of the entries, mutating
    [result]. *)
Fixpoint clean_entries (f : jv -> jv) (entries : obj) (result : obj) : obj :=
  match entries with
  | [] => result
  | (k, v) :: rest => clean_entries f rest (clean_step k (f v) result)
  end.

(** [cleanQuery (query)]: [_.isObject] holds of non-array objects only.
    [Object.assign({}, query)] copies the properties, so the loop starts
    from [result = entries = props]. *)
Fixpoint cleanQuery (query : jv) : jv :=
  match query with
  | JArr items => JArr (map cleanQuery items)
  | JObj props => JObj (clean_entries cleanQuery props props)
  | q => q
  end.

(** ** StripeAdapter.filterQuery *)

(** [Object.assign({}, params.query)] for a query that is an object or
    absent. *)
Definition query_copy (q : jv) : obj :=
  match q with JObj o => o | _ => [] end.

(** [filterQuery (params)] with [this.options.paginate = paginate]. *)
Definition filterQuery (paginate : option policy) (params : obj) : jv :=
  let query := query_copy (obj_get params "query") in
  let limit := js_or (obj_get query "$limit") (obj_get query "limit") in
  let query' :=
    if truthy limit then
      obj_delete "$limit"
        (obj_set "limit" (getLimit paginate limit (obj_get params "paginate")) query)
    else query in
  cleanQuery (JObj query').

(** ** StripeAdapter.handlePaginate *)

(** The value returned by an SDK list method: the promise it settles to,
    and, when present, what [autoPagingEach] does: the items it visits and
    the error it ends with, if any. *)
Record stripe_method : Type := mkStripeMethod {
  sm_result : promise;
  sm_autoPagingEach : option (list jv * option err)
}.

(** [async handlePaginate ({ paginate }, stripeMethod)]: an async
    function, so a [throw] is a rejection. *)
Definition handlePaginate (paginate : jv) (stripeMethod : stripe_method) : promise :=
  if truthy paginate then sm_result stripeMethod
  else
    match sm_autoPagingEach stripeMethod with
    | Some (results, None) => Resolved (JArr results)
    | Some (_, Some e) => Rejected e
    | None =>
        Rejected (FErr MethodNotAllowed
                    (JStr "Cannot use paginate: false on this method") JUndef)
    end.

(** ** StripeAdapter.handleError *)

(** [error.type]: feathers errors carry [type: 'FeathersError']; a
    [TypeError] has none; [None] is the TypeError of reading a property of
    [null] or [undefined]. *)
Definition err_type (e : err) : option jv :=
  match e with
  | FErr _ _ _ => Some (JStr "FeathersError")
  | PlainError _ | TypeErr => Some JUndef
  | Raw v => prop v "type"
  end.

(** The error value [error] as seen by the constructors' arguments. *)
Definition err_value (e : err) : jv :=
  match e with Raw v => v | _ => JUndef end.

(** The [switch (error.type)]: each [case] is a strict equality, so only
    strings match; [default] is [GeneralError]. *)
Definition stripe_error_class (t : jv) : ferr :=
  match t with
  | JStr s =>
    if String.eqb s "StripeCardError" then PaymentError
    else if String.eqb s "StripeInvalidRequestError" then BadRequest
    else if String.eqb s "StripeInvalidRequest" then BadRequest
    else if String.eqb s "StripeAPIError" then Unavailable
    else if String.eqb s "StripeConnectionError" then Unavailable
    else if String.eqb s "StripeAuthenticationError" then NotAuthenticated
    else if String.eqb s "StripeRateLimitError" then TooManyRequests
    else GeneralError
  | _ => GeneralError
  end.

Definition handleError (error : err) : completion :=
  match err_type error with
  | None => Throw TypeErr
  | Some t =>
    let v := err_value error in
    let feathersError :=
      if truthy t then
        match stripe_error_class t with
        | GeneralError => FErr GeneralError (JStr "Unknown Payment Gateway Error") v
        | c => FErr c v v
        end
      else error in
    Return (Rejected feathersError)
  end.

(** ** The adapter's verb dispatch ([$patch], [$update]) *)

(** The underscore methods a concrete service defines, [None] when absent;
    each takes the spread arguments and returns a promise. *)
Record adapter_methods : Type := mkMethods {
  m_patch : option (list jv -> promise);
  m_update : option (list jv -> promise)
}.

Definition dollar_update (s : adapter_methods) (args : list jv) : completion :=
  match m_update s with
  | None => Throw (FErr NotImplemented (JStr "Update method not implemented") JUndef)
  | Some u => Return (catch (u args) handleError)
  end.

Definition dollar_patch (s : adapter_methods) (args : list jv) : completion :=
  match m_patch s with
  | Some p => Return (catch (p args) handleError)
  | None =>
    match m_update s with
    | Some u => Return (catch (u args) handleError)
    | None => Throw (FErr NotImplemented (JStr "Patch method not implemented") JUndef)
    end
  end.

(** ** Construction *)

(** The client a service holds: [Stripe(secretKey)] or the given handle. *)
Inductive client : Type :=
| FromKey (secretKey : jv)
| Handle (stripe : jv).

Record instance : Type := mkInstance {
  inst_stripe : client;
  inst_options : obj
}.

Inductive ctor_result : Type :=
| CtorThrow (e : err)
| CtorOk (i : instance).

(** [{ ...defaults, ...options }]: each property of [options], in order,
    is set on a copy of [defaults]. *)
Definition spread (defaults options : obj) : obj :=
  fold_left (fun acc kv => obj_set (fst kv) (snd kv) acc) options defaults.

(** [new StripeAdapter(options)].  [inst_options] holds the merged [opts]
    passed to [super]; the further defaults [AdapterBase] adds to its own
    [this.options] ([id], [events], [multi], [filters], [operators]) are
    not modelled, since they never override the keys of [opts]. *)
Definition adapter_ctor (options : obj) : ctor_result :=
  let opts := spread [("paginate", JObj [("default", JNum 10); ("max", JNum 100)])] options in
  if negb (truthy (obj_get opts "secretKey")) && negb (truthy (obj_get opts "stripe")) then
    CtorThrow (PlainError "Stripe service option `secretKey` or `stripe` needs to be provided")
  else
    let stripe := if truthy (obj_get opts "stripe") then Handle (obj_get opts "stripe")
                  else FromKey (obj_get opts "secretKey") in
    CtorOk (mkInstance stripe opts).

(** [new Service(options)] of the legacy transfers and orders services:
    [this.paginate = options.paginate = {}] also writes [options]. *)
Definition legacy_ctor (options : obj) : ctor_result :=
  if negb (truthy (obj_get options "secretKey")) then
    CtorThrow (PlainError "Stripe `secretKey` needs to be provided")
  else
    CtorOk (mkInstance (FromKey (obj_get options "secretKey"))
                       (obj_set "paginate" (JObj []) options)).

(** ** Services calling the Stripe SDK *)

(** A call [this.stripe.<resource>.<method>(...args)]. *)
Inductive sdk_call : Type :=
| Call (resource method : string) (args : list jv).

(** The [i]-th spread argument, [undefined] when missing. *)
Definition arg (i : nat) (args : list jv) : jv := nth i args JUndef.

Section Services.

(** The SDK, and the legacy services' [../error-handler] module. *)
Variable sdk : sdk_call -> promise.
Variable errorHandler : err -> completion.

(** [this.stripe.r.m(...).catch(errorHandler)]: the calls issued, in
    order, and the returned promise. *)
Definition sdk_invoke (c : sdk_call) : list sdk_call * promise :=
  ([c], catch (sdk c) errorHandler).

(** Transfers (legacy [Service] of transfer.js). *)
Definition transfers_update (args : list jv) : list sdk_call * promise :=
  sdk_invoke (Call "transfers" "update" [arg 0 args; arg 1 args]).

Definition transfers_patch (args : list jv) : list sdk_call * promise :=
  transfers_update args.

Definition transfers_remove (id : jv) : list sdk_call * promise :=
  sdk_invoke (Call "transfers" "createReversal" [id]).

(** Prices ([Service] of price.js on the adapter base). *)
Definition prices__update (args : list jv) : list sdk_call * promise :=
  sdk_invoke (Call "prices" "update" [arg 0 args; arg 1 args]).

Definition prices__patch (args : list jv) : list sdk_call * promise :=
  prices__update args.

Definition prices_patch (args : list jv) : list sdk_call * promise :=
  prices__patch args.

Definition prices_update (args : list jv) : list sdk_call * promise :=
  prices__update [arg 0 args; arg 1 args].

(** Orders (legacy [Service] of price.js). *)
Definition orders_update (id : jv) (data : obj) : list sdk_call * promise :=
  sdk_invoke (Call "orders" "update" [id; JObj data]).

(** [patch (id, data)]: the pay promise is created and dropped. *)
Definition orders_patch (id : jv) (data : obj) : list sdk_call * promise :=
  if truthy (obj_get data "pay") then
    let payload := obj_delete "pay" data in
    let pay_call := Call "orders" "pay" [id; JObj payload] in
    let (_, _) := sdk_invoke pay_call in
    let (calls, result) := orders_update id data in
    (pay_call :: calls, result)
  else orders_update id data.

End Services.

(** ** The remaining adapter verbs and [BaseService] *)

(** [$find], [$get], [$create], [$remove] (and [$update]) share one shape:
    [if (!this._verb) throw new errors.NotImplemented('Verb method not
    implemented'); return this._verb(...args).catch(this.handleError)].
    The underscore method may itself throw synchronously, in which case
    [.catch] is never reached and the exception propagates. *)
Definition dollar_verb (verb : string) (m : option (list jv -> completion))
  (args : list jv) : completion :=
  match m with
  | None => Throw (FErr NotImplemented (JStr (verb ++ " method not implemented")) JUndef)
  | Some f =>
    match f args with
    | Throw e => Throw e
    | Return p => Return (catch p handleError)
    end
  end.

Definition dollar_find := dollar_verb "Find".
Definition dollar_get := dollar_verb "Get".
Definition dollar_create := dollar_verb "Create".
Definition dollar_remove := dollar_verb "Remove".

(** An underscore method that always returns a promise (an [async]
    method, for instance). *)
Definition lift_method (m : option (list jv -> promise)) : option (list jv -> completion) :=
  match m with
  | Some f => Some (fun args => Return (f args))
  | None => None
  end.

(** A verb whose underscore method always returns a promise. *)
Definition dollar_method (verb : string) (m : option (list jv -> promise))
  (args : list jv) : completion :=
  dollar_verb verb (lift_method m) args.








(** [filterParams (params = {})]. *)
Definition filterParams (paginate : option policy) (params : obj) : obj :=
  [("query", filterQuery paginate params);
   ("stripe", obj_get params "stripe");
   ("paginate", JBool (match obj_get params "paginate" with
                       | JBool false => false
                       | _ => true
                       end))].

(** ** Queries that [cleanQuery] leaves alone *)

Fixpoint keys_nodupb (ks : list string) : bool :=
  match ks with
  | [] => true
  | k :: ks' => negb (existsb (String.eqb k) ks') && keys_nodupb ks'
  end.

(** No key starting with ['$'] at any depth, and distinct keys in every
    object. *)
Fixpoint clean_form (q : jv) : bool :=
  match q with
  | JArr items => forallb clean_form items
  | JObj props =>
      keys_nodupb (map fst props) &&
      forallb (fun '(k, v) => negb (starts_dollar k) && clean_form v) props
  | _ => true
  end.

(** Induction over [jv] through its nested lists. *)
Section JvInd.
Variable P : jv -> Prop.
Hypothesis Harr : forall items, Forall P items -> P (JArr items).
Hypothesis Hobj : forall props, Forall (fun kv => P (snd kv)) props -> P (JObj props).
Hypothesis Hatom : forall q, (forall items, q <> JArr items) ->
                             (forall props, q <> JObj props) -> P q.

Fixpoint jv_nested_ind (q : jv) : P q :=
  match q as q0 return P q0 with
  | JArr items =>
      Harr items
        ((fix go (l : list jv) : Forall P l :=
            match l with
            | [] => Forall_nil P
            | x :: l' => Forall_cons x (jv_nested_ind x) (go l')
            end) items)
  | JObj props =>
      Hobj props
        ((fix go (l : list (string * jv)) : Forall (fun kv => P (snd kv)) l :=
            match l with
            | [] => Forall_nil _
            | (k, x) :: l' =>
                Forall_cons (P := fun kv => P (snd kv)) (k, x) (jv_nested_ind x) (go l')
            end) props)
  | JUndef => Hatom JUndef (fun _ H => ltac:(discriminate)) (fun _ H => ltac:(discriminate))
  | JNull => Hatom JNull (fun _ H => ltac:(discriminate)) (fun _ H => ltac:(discriminate))
  | JBool b => Hatom (JBool b) (fun _ H => ltac:(discriminate)) (fun _ H => ltac:(discriminate))
  | JNum z => Hatom (JNum z) (fun _ H => ltac:(discriminate)) (fun _ H => ltac:(discriminate))
  | JNaN => Hatom JNaN (fun _ H => ltac:(discriminate)) (fun _ H => ltac:(discriminate))
  | JStr t => Hatom (JStr t) (fun _ H => ltac:(discriminate)) (fun _ H => ltac:(discriminate))
  end.
End JvInd.

(** ** Definitions following the spec's words *)

(** The spec's error table (section 4.3): discriminator and category. *)
Definition spec_error_table : list (string * ferr) :=
  [("StripeCardError", PaymentError);
   ("StripeInvalidRequestError", BadRequest);
   ("StripeInvalidRequest", BadRequest);
   ("StripeAPIError", Unavailable);
   ("StripeConnectionError", Unavailable);
   ("StripeAuthenticationError", NotAuthenticated);
   ("StripeRateLimitError", TooManyRequests)].

(** "L-or-D": the requested limit when it is a number, the default
    otherwise. *)
Definition limit_or (L : jv) (D : Z) : Z :=
  match L with JNum l => l | _ => D end.

(** ** Pagination limit *)

(** C1 (counterexample): with a policy whose default and maximum are both
    [0], a requested limit [5] is returned unchanged, not [min(5, 0)]. *)
Lemma getLimit_zero_policy_passes_through :
  getLimit (Some (mkPolicy (Some 0%Z) (Some 0%Z))) (JNum 5) JUndef = JNum 5 /\
  getLimit (Some (mkPolicy (Some 0%Z) (Some 0%Z))) (JNum 5) JUndef
    <> JNum (Z.min (limit_or (JNum 5) 0) 0).
Proof. split; [reflexivity | simpl; discriminate]. Qed.

(** C1 (amended): for a policy with numeric default [D] and maximum [M],
    [getLimit L paramsPaginate] is [L] when [paramsPaginate] is [false];
    otherwise it is [min(L-or-D, M)], except when [D] and [M] are both [0]
    (pagination not configured), where [L] is returned unchanged. *)
Theorem getLimit_spec (D M : Z) (L paramsPaginate : jv) :
  getLimit (Some (mkPolicy (Some D) (Some M))) L paramsPaginate =
  match paramsPaginate with
  | JBool false => L
  | _ => if Z.eqb D 0 && Z.eqb M 0 then L else JNum (Z.min (limit_or L D) M)
  end.
Proof.
  unfold getLimit, opt_truthy; simpl.
  assert (Hbody :
    (if negb (D =? 0)%Z || negb (M =? 0)%Z then
       JNum (Z.min (match is_number L with Some l => l
                    | None => if negb (D =? 0)%Z then D else 0%Z end) M)
     else L) =
    (if (D =? 0)%Z && (M =? 0)%Z then L else JNum (Z.min (limit_or L D) M))).
  { destruct (Z.eqb_spec D 0) as [->|HD]; destruct (Z.eqb_spec M 0) as [->|HM];
      simpl; try reflexivity;
      destruct L; reflexivity. }
  destruct paramsPaginate as [| |[|]| | | | |]; exact Hbody || reflexivity.
Qed.

(** ** Error mapping *)

Lemma stripe_error_class_unknown (t : jv) :
  (forall s c, In (s, c) spec_error_table -> t <> JStr s) ->
  stripe_error_class t = GeneralError.
Proof.
  intros H; destruct t; try reflexivity; simpl.
  repeat match goal with
  | |- context [String.eqb ?a ?b] =>
      destruct (String.eqb_spec a b) as [->|_];
      [exfalso; refine (H _ _ _ eq_refl); simpl;
       repeat (first [left; reflexivity | right]) |]
  end.
  reflexivity.
Qed.

(** C2 (counterexample): an error object with no [type] is rejected
    unchanged, not as the generic "Unknown Payment Gateway Error". *)
Lemma handleError_untyped_passes_through :
  let e := JObj [("message", JStr "boom")] in
  handleError (Raw e) = Return (Rejected (Raw e)) /\
  handleError (Raw e)
    <> Return (Rejected (FErr GeneralError (JStr "Unknown Payment Gateway Error") e)).
Proof. simpl; split; [reflexivity | discriminate]. Qed.

(** C2 (amended): for every error object, [handleError] returns a rejected
    promise and never throws; the seven known discriminators map to their
    table categories; any other truthy discriminator maps to the generic
    "Unknown Payment Gateway Error"; an absent or falsy discriminator
    leaves the error unchanged. *)
Theorem handleError_spec :
  (forall props, exists e', handleError (Raw (JObj props)) = Return (Rejected e')) /\
  (forall props s c, In (s, c) spec_error_table ->
     let v := JObj (("type", JStr s) :: props) in
     handleError (Raw v) = Return (Rejected (FErr c v v))) /\
  (forall props t, truthy t = true ->
     (forall s c, In (s, c) spec_error_table -> t <> JStr s) ->
     let v := JObj (("type", t) :: props) in
     handleError (Raw v) =
       Return (Rejected (FErr GeneralError (JStr "Unknown Payment Gateway Error") v))) /\
  (forall props, truthy (obj_get props "type") = false ->
     handleError (Raw (JObj props)) = Return (Rejected (Raw (JObj props)))).
Proof.
  split; [|split; [|split]].
  - intros props; unfold handleError; simpl.
    destruct (truthy (obj_get props "type")).
    + destruct (stripe_error_class (obj_get props "type")); eexists; reflexivity.
    + eexists; reflexivity.
  - intros props s c Hin v; unfold v; simpl in Hin.
    repeat (destruct Hin as [Hin|Hin]; [injection Hin as <- <-; reflexivity|]).
    contradiction.
  - intros props t Ht Hnot v; unfold handleError, v; simpl.
    unfold obj_get; simpl. rewrite Ht, (stripe_error_class_unknown t Hnot).
    reflexivity.
  - intros props Hf; unfold handleError; simpl. rewrite Hf. reflexivity.
Qed.

(** C2 witness. *)
Lemma handleError_spec_witness :
  handleError (Raw (JObj [("type", JStr "StripeRateLimitError")])) =
    Return (Rejected (FErr TooManyRequests (JObj [("type", JStr "StripeRateLimitError")])
                                          (JObj [("type", JStr "StripeRateLimitError")]))) /\
  handleError (Raw (JObj [("type", JStr "StripeOther")])) =
    Return (Rejected (FErr GeneralError (JStr "Unknown Payment Gateway Error")
                           (JObj [("type", JStr "StripeOther")]))) /\
  handleError (Raw (JObj [])) = Return (Rejected (Raw (JObj []))).
Proof.
  destruct handleError_spec as [_ [H2 [H3 H4]]].
  split; [|split].
  - apply (H2 [] "StripeRateLimitError" TooManyRequests). simpl; tauto.
  - apply (H3 [] (JStr "StripeOther")); [reflexivity|].
    intros s c Hin; simpl in Hin.
    repeat (destruct Hin as [Hin|Hin]; [injection Hin as <- <-; discriminate|]).
    contradiction.
  - apply H4. reflexivity.
Defined.

(** ** Query normalization *)

Lemma obj_lookup_set (x k : string) (v : jv) (o : obj) :
  obj_lookup x (obj_set k v o) = if String.eqb x k then Some v else obj_lookup x o.
Proof.
  induction o as [|[k' v'] o IH]; simpl.
  - reflexivity.
  - destruct (String.eqb_spec k k') as [->|Hk]; simpl.
    + destruct (String.eqb x k'); reflexivity.
    + rewrite IH. destruct (String.eqb_spec x k) as [->|Hx].
      * destruct (String.eqb_spec k k'); [contradiction|reflexivity].
      * reflexivity.
Qed.

Lemma obj_lookup_delete (x k : string) (o : obj) :
  obj_lookup x (obj_delete k o) = if String.eqb x k then None else obj_lookup x o.
Proof.
  unfold obj_delete.
  induction o as [|[k' v'] o IH]; simpl.
  - destruct (String.eqb x k); reflexivity.
  - destruct (String.eqb_spec k k') as [->|Hk]; simpl.
    + rewrite IH. destruct (String.eqb_spec x k') as [->|Hx]; reflexivity.
    + rewrite IH. destruct (String.eqb_spec x k') as [->|Hx].
      * destruct (String.eqb_spec k' k) as [->|_]; [contradiction|reflexivity].
      * reflexivity.
Qed.

Lemma clean_step_lookup (x k : string) (cv : jv) (r : obj) :
  obj_lookup x (clean_step k cv r) =
  if String.eqb x (clean_key k) then Some cv
  else if starts_dollar k && String.eqb x k then None
  else obj_lookup x r.
Proof.
  unfold clean_step.
  destruct k as [|c rest]; simpl.
  - rewrite obj_lookup_set. reflexivity.
  - destruct (Ascii.eqb c "$"%char); simpl.
    + rewrite obj_lookup_set, obj_lookup_delete. reflexivity.
    + rewrite obj_lookup_set. destruct (String.eqb x (String c rest)); reflexivity.
Qed.

Lemma clean_key_dollar (k' : string) : clean_key (String "$" k') = k'.
Proof. reflexivity. Qed.

(** Entries whose key neither is [x] nor strips to [x] leave [x] alone. *)
Lemma clean_entries_lookup_other (f : jv -> jv) (x : string) (es r : obj) :
  (forall k v, In (k, v) es -> k <> x /\ clean_key k <> x) ->
  obj_lookup x (clean_entries f es r) = obj_lookup x r.
Proof.
  revert r; induction es as [|[k v] es IH]; intros r H; simpl.
  - reflexivity.
  - rewrite IH by (intros k2 v2 Hin; apply (H k2 v2); right; exact Hin).
    rewrite clean_step_lookup.
    destruct (H k v (or_introl eq_refl)) as [Hk Hck].
    destruct (String.eqb_spec x (clean_key k)) as [E|_]; [congruence|].
    destruct (String.eqb_spec x k) as [E|_]; [congruence|].
    rewrite andb_false_r. reflexivity.
Qed.

(** Entries that do not strip to [x] never create [x]. *)
Lemma clean_entries_lookup_absent (f : jv -> jv) (x : string) (es r : obj) :
  (forall k v, In (k, v) es -> clean_key k <> x) ->
  obj_lookup x r = None ->
  obj_lookup x (clean_entries f es r) = None.
Proof.
  revert r; induction es as [|[k v] es IH]; intros r H Hr; simpl.
  - exact Hr.
  - apply IH; [intros k2 v2 Hin; apply (H k2 v2); right; exact Hin|].
    rewrite clean_step_lookup.
    destruct (String.eqb_spec x (clean_key k)) as [E|_];
      [exfalso; apply (H k v (or_introl eq_refl)); congruence|].
    destruct (starts_dollar k && String.eqb x k); [reflexivity|exact Hr].
Qed.

Lemma clean_entries_app (f : jv -> jv) (es1 es2 r : obj) :
  clean_entries f (es1 ++ es2)%list r = clean_entries f es2 (clean_entries f es1 r).
Proof.
  revert r; induction es1 as [|[k v] es1 IH]; intros r; simpl; [reflexivity|apply IH].
Qed.

(** C3 (counterexample): in [{ $limit: 5, limit: 7 }] both keys forward
    to [limit]; the later one wins, so [limit] is not [5]. *)
Lemma cleanQuery_key_collision :
  cleanQuery (JObj [("$limit", JNum 5); ("limit", JNum 7)]) = JObj [("limit", JNum 7)] /\
  jlookup (cleanQuery (JObj [("$limit", JNum 5); ("limit", JNum 7)])) "limit"
    <> Some (cleanQuery (JNum 5)).
Proof. split; [reflexivity | simpl; discriminate]. Qed.

(** C3 (amended): lists are normalized element-wise, values that are
    neither lists nor objects are returned unchanged, and in a mapping with
    distinct keys, a key ["$" ++ k'] appears as [k'] with its value
    normalized, provided no other key of the mapping is [k'] or strips
    to [k']. *)
Theorem cleanQuery_spec :
  (forall items, cleanQuery (JArr items) = JArr (map cleanQuery items)) /\
  (forall q, (forall items, q <> JArr items) -> (forall props, q <> JObj props) ->
     cleanQuery q = q) /\
  (forall props k' v,
     NoDup (map fst props) ->
     In (String "$" k', v) props ->
     (forall k2 v2, In (k2, v2) props -> k2 <> String "$" k' ->
        k2 <> k' /\ clean_key k2 <> k') ->
     jlookup (cleanQuery (JObj props)) k' = Some (cleanQuery v)).
Proof.
  split; [|split].
  - reflexivity.
  - intros q Ha Ho; destruct q; try reflexivity;
      [exfalso; eapply Ha; reflexivity | exfalso; eapply Ho; reflexivity].
  - intros props k' v Hnd Hin Hother; simpl.
    destruct (in_split _ _ Hin) as (pre & post & Hsplit).
    rewrite Hsplit at 1.
    rewrite clean_entries_app; simpl.
    rewrite Hsplit in Hnd.
    rewrite map_app in Hnd; simpl in Hnd.
    apply NoDup_remove_2 in Hnd.
    rewrite clean_entries_lookup_other.
    + rewrite clean_step_lookup, clean_key_dollar, String.eqb_refl. reflexivity.
    + intros k2 v2 Hin2. apply (Hother k2 v2).
      * rewrite Hsplit. apply in_or_app. right. right. exact Hin2.
      * intros ->. apply Hnd. apply in_or_app. right.
        apply (in_map fst _ (String "$" k', v2)). exact Hin2.
Qed.

(** C3 witness: the spec's example query. *)
Lemma cleanQuery_spec_witness :
  jlookup (cleanQuery (JObj [("$limit", JNum 25); ("status", JStr "paid")])) "limit"
    = Some (JNum 25).
Proof.
  destruct cleanQuery_spec as [_ [_ H]].
  apply (H [("$limit", JNum 25); ("status", JStr "paid")] "limit" (JNum 25)).
  - simpl. repeat constructor; simpl; intuition discriminate.
  - simpl. left. reflexivity.
  - intros k2 v2 Hin Hne; simpl in Hin.
    destruct Hin as [Hin|[Hin|[]]]; injection Hin as <- <-;
      [contradiction | split; discriminate].
Defined.

(** ** Pagination switch *)

(** C4: with [paginate] false, an SDK result without [autoPagingEach]
    rejects with [MethodNotAllowed]; with it, the visited items are
    collected and resolved; with pagination enabled (truthy [paginate]) the
    SDK result is passed through. *)
Theorem handlePaginate_spec :
  (forall sm, sm_autoPagingEach sm = None ->
     handlePaginate (JBool false) sm =
       Rejected (FErr MethodNotAllowed (JStr "Cannot use paginate: false on this method") JUndef)) /\
  (forall sm items, sm_autoPagingEach sm = Some (items, None) ->
     handlePaginate (JBool false) sm = Resolved (JArr items)) /\
  (forall paginate sm, truthy paginate = true ->
     handlePaginate paginate sm = sm_result sm).
Proof.
  split; [|split].
  - intros sm H; unfold handlePaginate; simpl; rewrite H; reflexivity.
  - intros sm items H; unfold handlePaginate; simpl; rewrite H; reflexivity.
  - intros paginate sm H; unfold handlePaginate; rewrite H; reflexivity.
Qed.

(** C4 witness. *)
Lemma handlePaginate_spec_witness :
  handlePaginate (JBool false) (mkStripeMethod (Resolved JNull) None) =
    Rejected (FErr MethodNotAllowed (JStr "Cannot use paginate: false on this method") JUndef) /\
  handlePaginate (JBool false) (mkStripeMethod (Resolved JNull) (Some ([JNum 1; JNum 2], None))) =
    Resolved (JArr [JNum 1; JNum 2]) /\
  handlePaginate (JBool true) (mkStripeMethod (Resolved (JArr [])) None) = Resolved (JArr []).
Proof.
  destruct handlePaginate_spec as [H1 [H2 H3]].
  split; [apply H1; reflexivity|split; [apply H2; reflexivity|apply H3; reflexivity]].
Defined.

(** ** Orders patch *)

(** C5 (counterexample): a payload [{ pay: 1 }] has no [pay: true] but
    still triggers the pay call. *)
Lemma orders_patch_truthy_pay_calls_pay :
  obj_get [("pay", JNum 1)] "pay" <> JBool true /\
  In (Call "orders" "pay" [JStr "or_1"; JObj []])
     (fst (orders_patch (fun _ => Resolved JNull) (fun e => Return (Rejected e))
                        (JStr "or_1") [("pay", JNum 1)])).
Proof. split; [discriminate | simpl; left; reflexivity]. Qed.

(** C5 (amended): [patch] issues a pay call exactly when [data.pay] is
    truthy, with the payload [data] minus [pay] (no [pay] key, every other
    key as in [data]), followed by the update call, which receives the
    original [data]. *)
Theorem orders_patch_calls (sdk : sdk_call -> promise) (errorHandler : err -> completion)
  (id : jv) (data : obj) :
  fst (orders_patch sdk errorHandler id data) =
    ((if truthy (obj_get data "pay")
      then [Call "orders" "pay" [id; JObj (obj_delete "pay" data)]] else []) ++
     [Call "orders" "update" [id; JObj data]])%list /\
  obj_lookup "pay" (obj_delete "pay" data) = None /\
  (forall k, k <> "pay" -> obj_lookup k (obj_delete "pay" data) = obj_lookup k data).
Proof.
  split; [|split].
  - unfold orders_patch; destruct (truthy (obj_get data "pay")); reflexivity.
  - rewrite obj_lookup_delete. reflexivity.
  - intros k Hk. rewrite obj_lookup_delete.
    destruct (String.eqb_spec k "pay"); [contradiction|reflexivity].
Qed.

(** C5 witness: the spec's example payload. *)
Lemma orders_patch_calls_witness :
  obj_lookup "amount" (obj_delete "pay" [("pay", JBool true); ("amount", JNum 500)]) =
    Some (JNum 500).
Proof.
  destruct (orders_patch_calls (fun _ => Resolved JNull) (fun e => Return (Rejected e))
              (JStr "or_1") [("pay", JBool true); ("amount", JNum 500)]) as [_ [_ H]].
  apply H. discriminate.
Defined.

(** C6: the outcome of [patch] is the (error-handled) outcome of the update
    call alone, the same as [update]; the pay call's outcome is not part
    of it. *)
Theorem orders_patch_result (sdk : sdk_call -> promise) (errorHandler : err -> completion)
  (id : jv) (data : obj) :
  snd (orders_patch sdk errorHandler id data) =
    catch (sdk (Call "orders" "update" [id; JObj data])) errorHandler /\
  snd (orders_patch sdk errorHandler id data) = snd (orders_update sdk errorHandler id data).
Proof.
  unfold orders_patch; destruct (truthy (obj_get data "pay")); split; reflexivity.
Qed.

(** ** Patch falls back to update *)

(** C7: the transfers and prices services' [patch] is their [update] on
    every argument list; the adapter's [$patch] is [$update] when the
    service has no [_patch] and an [_update], and throws [NotImplemented]
    exactly when the service has neither. *)
Theorem patch_is_update :
  (forall sdk eh args, transfers_patch sdk eh args = transfers_update sdk eh args) /\
  (forall sdk eh args, prices_patch sdk eh args = prices_update sdk eh args) /\
  (forall s args u, m_patch s = None -> m_update s = Some u ->
     dollar_patch s args = dollar_update s args) /\
  (forall s args,
     (exists e, dollar_patch s args = Throw e) <-> m_patch s = None /\ m_update s = None) /\
  (forall s args, m_patch s = None -> m_update s = None ->
     dollar_patch s args = Throw (FErr NotImplemented (JStr "Patch method not implemented") JUndef)).
Proof.
  split; [|split; [|split; [|split]]].
  - reflexivity.
  - reflexivity.
  - intros s args u Hp Hu; unfold dollar_patch, dollar_update; rewrite Hp, Hu; reflexivity.
  - intros s args; unfold dollar_patch; split.
    + intros [e He]. destruct (m_patch s); [discriminate|].
      destruct (m_update s); [discriminate|]. split; reflexivity.
    + intros [Hp Hu]; rewrite Hp, Hu; eexists; reflexivity.
  - intros s args Hp Hu; unfold dollar_patch; rewrite Hp, Hu; reflexivity.
Qed.

(** C7 witness. *)
Lemma patch_is_update_witness :
  dollar_patch (mkMethods None (Some (fun _ => Resolved JNull))) [JStr "id"] =
    dollar_update (mkMethods None (Some (fun _ => Resolved JNull))) [JStr "id"] /\
  dollar_patch (mkMethods None None) [] =
    Throw (FErr NotImplemented (JStr "Patch method not implemented") JUndef).
Proof.
  destruct patch_is_update as [_ [_ [H3 [_ H5]]]].
  split; [apply (H3 _ _ (fun _ => Resolved JNull)); reflexivity|apply H5; reflexivity].
Defined.

(** ** Transfers remove *)

(** C8: [remove(id)] on transfers issues exactly one SDK call, a
    [createReversal] of [id]. *)
Theorem transfers_remove_reverses (sdk : sdk_call -> promise) (errorHandler : err -> completion)
  (id : jv) :
  fst (transfers_remove sdk errorHandler id) = [Call "transfers" "createReversal" [id]].
Proof. reflexivity. Qed.

(** ** Construction *)

Lemma obj_lookup_app (k : string) (l1 l2 : obj) :
  obj_lookup k (l1 ++ l2)%list =
  match obj_lookup k l1 with Some v => Some v | None => obj_lookup k l2 end.
Proof.
  induction l1 as [|[k' v'] l1 IH]; simpl; [reflexivity|].
  destruct (String.eqb k k'); [reflexivity|exact IH].
Qed.

Lemma obj_lookup_notin (k : string) (o : obj) :
  ~ In k (map fst o) -> obj_lookup k o = None.
Proof.
  induction o as [|[k' v'] o IH]; simpl; intros H; [reflexivity|].
  destruct (String.eqb_spec k k') as [->|_]; [exfalso; tauto|].
  apply IH; tauto.
Qed.


Lemma obj_lookup_rev (k : string) (o : obj) :
  NoDup (map fst o) -> obj_lookup k (rev o) = obj_lookup k o.
Proof.
  induction o as [|[k' v'] o IH]; simpl; intros Hnd; [reflexivity|].
  inversion Hnd as [|? ? Hnotin Hnd']; subst.
  rewrite obj_lookup_app, IH by exact Hnd'; simpl.
  destruct (String.eqb_spec k k') as [->|_].
  - rewrite obj_lookup_notin by exact Hnotin. reflexivity.
  - destruct (obj_lookup k o); reflexivity.
Qed.

(** A property of [{ ...defaults, ...options }] is the last binding in
    [options], or else the default. *)
Lemma spread_lookup (k : string) (defaults options : obj) :
  obj_lookup k (spread defaults options) =
  match obj_lookup k (rev options) with Some v => Some v | None => obj_lookup k defaults end.
Proof.
  unfold spread; revert defaults.
  induction options as [|[k' v'] options IH]; intros defaults; simpl; [reflexivity|].
  rewrite IH, obj_lookup_app, obj_lookup_set; simpl.
  destruct (obj_lookup k (rev options)); [reflexivity|].
  destruct (String.eqb k k'); reflexivity.
Qed.

(** C9: the adapter's constructor throws exactly when the options give
    neither a truthy [secretKey] nor a truthy [stripe] handle; the legacy
    services' constructor exactly when there is no truthy [secretKey].
    The instance, holding the client, exists only when no error is
    thrown. *)
Theorem construction_throws_iff (options : obj) :
  NoDup (map fst options) ->
  ((exists e, adapter_ctor options = CtorThrow e) <->
     truthy (obj_get options "secretKey") = false /\ truthy (obj_get options "stripe") = false) /\
  ((exists e, legacy_ctor options = CtorThrow e) <->
     truthy (obj_get options "secretKey") = false).
Proof.
  intros Hnd.
  assert (Hsk : obj_get (spread [("paginate", JObj [("default", JNum 10); ("max", JNum 100)])] options) "secretKey"
                = obj_get options "secretKey").
  { unfold obj_get. rewrite spread_lookup, obj_lookup_rev by exact Hnd.
    destruct (obj_lookup "secretKey" options); reflexivity. }
  assert (Hst : obj_get (spread [("paginate", JObj [("default", JNum 10); ("max", JNum 100)])] options) "stripe"
                = obj_get options "stripe").
  { unfold obj_get. rewrite spread_lookup, obj_lookup_rev by exact Hnd.
    destruct (obj_lookup "stripe" options); reflexivity. }
  split.
  - unfold adapter_ctor. rewrite Hsk, Hst.
    destruct (truthy (obj_get options "secretKey")), (truthy (obj_get options "stripe"));
      simpl; split; intros H;
      try (destruct H as [e He]; discriminate);
      try (destruct H as [H1 H2]; discriminate);
      try (eexists; reflexivity); try (split; reflexivity).
  - unfold legacy_ctor.
    destruct (truthy (obj_get options "secretKey")); simpl; split.
    + intros [e He]; discriminate.
    + discriminate.
    + intros _; reflexivity.
    + intros _; eexists; reflexivity.
Qed.

(** C9 witness. *)
Lemma construction_throws_iff_witness :
  (exists e, adapter_ctor [("paginate", JBool false)] = CtorThrow e) /\
  ~ (exists e, adapter_ctor [("stripe", JObj [])] = CtorThrow e) /\
  (exists e, legacy_ctor [("stripe", JObj [])] = CtorThrow e).
Proof.
  split; [|split].
  - apply (proj1 (construction_throws_iff [("paginate", JBool false)]
                    ltac:(repeat constructor; simpl; tauto))).
    split; reflexivity.
  - intros H.
    apply (proj1 (construction_throws_iff [("stripe", JObj [])]
                    ltac:(repeat constructor; simpl; tauto))) in H.
    destruct H as [_ H]; discriminate.
  - apply (proj2 (construction_throws_iff [("stripe", JObj [])]
                    ltac:(repeat constructor; simpl; tauto))).
    reflexivity.
Defined.

(** ** Query filtering *)

Lemma clean_key_inv (k x : string) :
  clean_key k = x -> k = x \/ k = String "$" x.
Proof.
  destruct k as [|c rest]; simpl; [left; exact H|].
  destruct (Ascii.eqb_spec c "$"%char) as [->|_]; intros H; [right|left]; congruence.
Qed.




(** * Further properties of the adapter *)

(** ** Helper lemmas *)

Lemma getLimit_not_false (pol : option policy) (L pp : jv) :
  pp <> JBool false -> getLimit pol L pp = getLimit pol L JUndef.
Proof.
  intros H; destruct pp as [| |[|]| | | | |]; try reflexivity; contradiction.
Qed.

Lemma getLimit_clamped (d : option Z) (M : Z) (L pp : jv) :
  pp <> JBool false -> M <> 0%Z ->
  exists z, getLimit (Some (mkPolicy d (Some M))) L pp = JNum z /\ (z <= M)%Z /\
            (forall l, L = JNum l -> z = Z.min l M).
Proof.
  intros Hpp HM; rewrite getLimit_not_false by exact Hpp.
  unfold getLimit; simpl.
  rewrite (proj2 (Z.eqb_neq M 0) HM), orb_true_r.
  eexists; split; [reflexivity|]. split; [lia|intros l ->; reflexivity].
Qed.

Lemma keys_obj_set (x k : string) (v : jv) (o : obj) :
  In x (map fst (obj_set k v o)) -> x = k \/ In x (map fst o).
Proof.
  induction o as [|[k' v'] o IH]; simpl; [intros [H|[]]; left; congruence|].
  destruct (String.eqb_spec k k') as [->|_]; simpl; [intros [H|H]; [left; congruence|tauto]|].
  intros [H|H]; [tauto|]. destruct (IH H); tauto.
Qed.

Lemma obj_set_nodup (k : string) (v : jv) (o : obj) :
  NoDup (map fst o) -> NoDup (map fst (obj_set k v o)).
Proof.
  induction o as [|[k' v'] o IH]; simpl; intros Hnd.
  - constructor; [simpl; tauto|constructor].
  - inversion Hnd as [|? ? Hn Hnd']; subst.
    destruct (String.eqb_spec k k') as [->|Hk]; simpl; [exact Hnd|].
    constructor; [|exact (IH Hnd')].
    intros Hin; destruct (keys_obj_set _ _ _ _ Hin); [congruence|tauto].
Qed.

Lemma in_obj_delete (x k : string) (v : jv) (o : obj) :
  In (x, v) (obj_delete k o) <-> In (x, v) o /\ x <> k.
Proof.
  unfold obj_delete; rewrite filter_In; simpl.
  destruct (String.eqb_spec k x); simpl; split; intros [H1 H2]; try split; congruence.
Qed.

Lemma obj_delete_nodup (k : string) (o : obj) :
  NoDup (map fst o) -> NoDup (map fst (obj_delete k o)).
Proof.
  unfold obj_delete.
  induction o as [|[k' v'] o IH]; simpl; intros Hnd; [constructor|].
  inversion Hnd as [|? ? Hn Hnd']; subst.
  destruct (String.eqb k k'); simpl; [exact (IH Hnd')|].
  constructor; [|exact (IH Hnd')].
  intros Hin; apply Hn.
  apply in_map_iff in Hin as [[a b] [<- Hab]].
  apply filter_In in Hab as [Hab _].
  apply (in_map fst _ (a, b)); exact Hab.
Qed.

Lemma in_obj_set (k : string) (v : jv) (o : obj) : In (k, v) (obj_set k v o).
Proof.
  induction o as [|[k' v'] o IH]; simpl; [left; reflexivity|].
  destruct (String.eqb k k'); simpl; tauto.
Qed.

Lemma lookup_in_nodup (k : string) (v : jv) (o : obj) :
  NoDup (map fst o) -> In (k, v) o -> obj_lookup k o = Some v.
Proof.
  induction o as [|[k' v'] o IH]; simpl; intros Hnd Hin; [contradiction|].
  inversion Hnd as [|? ? Hn Hnd']; subst.
  destruct Hin as [E|Hin].
  - injection E as -> ->. rewrite String.eqb_refl. reflexivity.
  - destruct (String.eqb_spec k k') as [->|_]; [|exact (IH Hnd' Hin)].
    exfalso; apply Hn; apply (in_map fst _ (k', v)); exact Hin.
Qed.

(** The entry of [es] whose key forwards to [x] gives [x] its cleaned
    value when no other key is [x] or forwards to [x]. *)
Lemma clean_entries_lookup_entry (f : jv -> jv) (x k : string) (v : jv) (es : obj) :
  NoDup (map fst es) -> In (k, v) es -> clean_key k = x ->
  (forall k2 v2, In (k2, v2) es -> k2 <> k -> k2 <> x /\ clean_key k2 <> x) ->
  obj_lookup x (clean_entries f es es) = Some (f v).
Proof.
  intros Hnd Hin Hk Hother.
  destruct (in_split _ _ Hin) as (pre & post & Hsplit).
  rewrite Hsplit at 1.
  rewrite clean_entries_app; simpl.
  pose proof Hnd as Hnd2.
  rewrite Hsplit, map_app in Hnd2; simpl in Hnd2.
  apply NoDup_remove_2 in Hnd2.
  rewrite clean_entries_lookup_other.
  - rewrite clean_step_lookup, <- Hk, String.eqb_refl. reflexivity.
  - intros k2 v2 Hin2. apply (Hother k2 v2).
    + rewrite Hsplit. apply in_or_app. right. right. exact Hin2.
    + intros ->. apply Hnd2. apply in_or_app. right.
      apply (in_map fst _ (k, v2)). exact Hin2.
Qed.

(** The limit [filterQuery] forwards, when it clamps. *)
Lemma filterQuery_limit_entry (pol : option policy) (params : obj) :
  let q := query_copy (obj_get params "query") in
  let limit := js_or (obj_get q "$limit") (obj_get q "limit") in
  NoDup (map fst q) -> truthy limit = true ->
  jlookup (filterQuery pol params) "limit" =
    Some (cleanQuery (getLimit pol limit (obj_get params "paginate"))).
Proof.
  intros q limit Hnd Ht.
  unfold filterQuery. fold q. fold limit. rewrite Ht.
  set (L' := getLimit pol limit (obj_get params "paginate")).
  set (q' := obj_delete "$limit" (obj_set "limit" L' q)).
  assert (Hnd' : NoDup (map fst q')) by (apply obj_delete_nodup, obj_set_nodup, Hnd).
  assert (Hin : In ("limit", L') q').
  { apply in_obj_delete. split; [apply in_obj_set|discriminate]. }
  simpl.
  apply (clean_entries_lookup_entry cleanQuery "limit" "limit" L' q' Hnd' Hin eq_refl).
  intros k2 v2 Hin2 Hne. split; [exact Hne|].
  intros Hc. apply in_obj_delete in Hin2 as [_ Hd].
  destruct (clean_key_inv k2 "limit" Hc); contradiction.
Qed.

(** ** Limits *)

(** X1: unless the call passes [paginate: false], a policy with a nonzero
    maximum [M] makes [getLimit] return a number no larger than [M]; a
    numeric request [l] becomes [min(l, M)] (a request within bounds,
    negative ones included, is kept as is). *)
Theorem getLimit_never_exceeds_max (d : option Z) (M : Z) (L pp : jv) :
  pp <> JBool false -> M <> 0%Z ->
  exists z, getLimit (Some (mkPolicy d (Some M))) L pp = JNum z /\ (z <= M)%Z /\
            (forall l, L = JNum l -> z = Z.min l M).
Proof. exact (getLimit_clamped d M L pp). Qed.

Lemma getLimit_never_exceeds_max_witness :
  exists z, getLimit (Some (mkPolicy (Some 10%Z) (Some 100%Z))) (JNum 500) JUndef = JNum z /\
            (z <= 100)%Z /\ (forall l, JNum 500 = JNum l -> z = Z.min l 100).
Proof. apply getLimit_never_exceeds_max; [discriminate | discriminate]. Defined.

(** X2: unless the call passes [paginate: false], a requested limit that
    is not a number (a string such as ["25"] from a URL query, [NaN],
    [undefined], [null]) is ignored: with a nonzero default [D] the result
    is [min(D, M)]; and with pagination off in the options the limit passes
    through unchanged. *)
Theorem getLimit_non_numeric_uses_default (D M : Z) (L pp : jv) :
  pp <> JBool false -> is_number L = None -> D <> 0%Z ->
  getLimit (Some (mkPolicy (Some D) (Some M))) L pp = JNum (Z.min D M) /\
  getLimit None L pp = L.
Proof.
  intros Hpp HL HD.
  split; [|destruct pp as [| |[|]| | | | |]; reflexivity].
  rewrite getLimit_not_false by exact Hpp.
  unfold getLimit; simpl. rewrite (proj2 (Z.eqb_neq D 0) HD); simpl. rewrite HL. reflexivity.
Qed.

Lemma getLimit_non_numeric_uses_default_witness :
  getLimit (Some (mkPolicy (Some 10%Z) (Some 100%Z))) (JStr "25") JUndef = JNum 10 /\
  getLimit None (JStr "25") JUndef = JStr "25".
Proof.
  apply (getLimit_non_numeric_uses_default 10 100 (JStr "25") JUndef);
    [discriminate | reflexivity | discriminate].
Defined.

(** X3: when the query (with distinct keys) carries a truthy [$limit] or
    [limit], the forwarded query's [limit] is the clamped number: at most
    [M] (for a nonzero maximum [M]) and [min(l, M)] for a numeric request
    [l]; with [paginate: false] on the call it is the requested value itself
    (normalized), unclamped. *)
Theorem filterQuery_forwards_clamped_limit (d : option Z) (M : Z) (params : obj) :
  let q := query_copy (obj_get params "query") in
  let limit := js_or (obj_get q "$limit") (obj_get q "limit") in
  NoDup (map fst q) -> truthy limit = true ->
  (obj_get params "paginate" <> JBool false -> M <> 0%Z ->
   exists z, jlookup (filterQuery (Some (mkPolicy d (Some M))) params) "limit" = Some (JNum z) /\
             (z <= M)%Z /\ (forall l, limit = JNum l -> z = Z.min l M)) /\
  (obj_get params "paginate" = JBool false ->
   jlookup (filterQuery (Some (mkPolicy d (Some M))) params) "limit" = Some (cleanQuery limit)).
Proof.
  intros q limit Hnd Ht.
  pose proof (filterQuery_limit_entry (Some (mkPolicy d (Some M))) params Hnd Ht) as He.
  fold q limit in He.
  split.
  - intros Hpp HM.
    destruct (getLimit_clamped d M limit (obj_get params "paginate") Hpp HM) as (z & Hz & Hle & Hmin).
    exists z. rewrite He, Hz. split; [reflexivity|split; assumption].
  - intros Hpp. rewrite He, Hpp. reflexivity.
Qed.

Lemma filterQuery_forwards_clamped_limit_witness :
  exists z, jlookup (filterQuery (Some (mkPolicy (Some 10%Z) (Some 100%Z)))
                       [("query", JObj [("$limit", JNum 500); ("status", JStr "paid")])]) "limit"
              = Some (JNum z) /\ (z <= 100)%Z /\
            (forall l, js_or (JNum 500) JUndef = JNum l -> z = Z.min l 100).
Proof.
  apply (filterQuery_forwards_clamped_limit (Some 10%Z) 100
           [("query", JObj [("$limit", JNum 500); ("status", JStr "paid")])]).
  - simpl. repeat constructor; simpl; intuition discriminate.
  - reflexivity.
  - discriminate.
  - discriminate.
Defined.

(** X4: [filterParams] turns [params.paginate] into a boolean that is
    [false] only for the literal [false]; fed to [handlePaginate], any other
    value ([undefined], [0], [null]) keeps the paginated pass-through, and
    the literal [false] selects the collect-all (or method-not-allowed)
    path. *)
Theorem filterParams_paginate_flag (pol : option policy) (params : obj) (sm : stripe_method) :
  (obj_get params "paginate" <> JBool false ->
   obj_get (filterParams pol params) "paginate" = JBool true /\
   handlePaginate (obj_get (filterParams pol params) "paginate") sm = sm_result sm) /\
  (obj_get params "paginate" = JBool false ->
   handlePaginate (obj_get (filterParams pol params) "paginate") sm =
     handlePaginate (JBool false) sm).
Proof.
  split.
  - intros H.
    assert (Hf : obj_get (filterParams pol params) "paginate" = JBool true).
    { unfold filterParams, obj_get at 1; simpl.
      destruct (obj_get params "paginate") as [| |[|]| | | | |]; try reflexivity; contradiction. }
    rewrite Hf. split; reflexivity.
  - intros H. unfold filterParams, obj_get at 1; simpl. rewrite H. reflexivity.
Qed.

Lemma filterParams_paginate_flag_witness :
  obj_get (filterParams None [("paginate", JNum 0)]) "paginate" = JBool true /\
  handlePaginate (obj_get (filterParams None [("paginate", JNum 0)]) "paginate")
    (mkStripeMethod (Resolved (JArr [])) None) = Resolved (JArr []).
Proof.
  apply (proj1 (filterParams_paginate_flag None [("paginate", JNum 0)]
                  (mkStripeMethod (Resolved (JArr [])) None))).
  discriminate.
Defined.

(** ** Query normalization, further *)

Lemma keys_nodupb_spec (ks : list string) : keys_nodupb ks = true -> NoDup ks.
Proof.
  induction ks as [|k ks IH]; simpl; intros H; [constructor|].
  apply andb_prop in H as [H1 H2].
  constructor; [|exact (IH H2)].
  intros Hin. apply negb_true_iff in H1.
  assert (existsb (String.eqb k) ks = true) as Hc
    by (apply existsb_exists; exists k; split; [exact Hin|apply String.eqb_refl]).
  congruence.
Qed.

Lemma obj_set_same (k : string) (v : jv) (r : obj) :
  obj_lookup k r = Some v -> obj_set k v r = r.
Proof.
  induction r as [|[k' v'] r IH]; simpl; intros H; [discriminate|].
  destruct (String.eqb_spec k k') as [->|_].
  - injection H as ->. reflexivity.
  - rewrite (IH H). reflexivity.
Qed.

Lemma clean_entries_fixed (f : jv -> jv) (es r : obj) :
  (forall k v, In (k, v) es -> starts_dollar k = false /\ f v = v /\ obj_lookup k r = Some v) ->
  clean_entries f es r = r.
Proof.
  induction es as [|[k v] es IH]; simpl; intros H; [reflexivity|].
  destruct (H k v (or_introl eq_refl)) as (Hs & Hf & Hl).
  unfold clean_step. rewrite Hs, Hf, (obj_set_same _ _ _ Hl).
  apply IH. intros k2 v2 Hin. apply H. right. exact Hin.
Qed.

Lemma clean_key_plain (k : string) : starts_dollar k = false -> clean_key k = k.
Proof.
  destruct k as [|c r]; simpl; [reflexivity|]. intros H; rewrite H; reflexivity.
Qed.

Lemma dollar_key_neq (r : string) : String "$" r <> r.
Proof. intros H. apply (f_equal String.length) in H. simpl in H. lia. Qed.

(** X5: [cleanQuery] leaves a query unchanged when no key at any depth
    starts with ['$'] (and every object has distinct keys). *)
Theorem cleanQuery_clean_form_id (q : jv) : clean_form q = true -> cleanQuery q = q.
Proof.
  induction q as [items Hall|props Hall|q Ha Ho] using jv_nested_ind.
  - simpl. intros H. f_equal.
    induction Hall as [|x l Hx Hl IH]; simpl in *; [reflexivity|].
    apply andb_prop in H as [H1 H2]. rewrite (Hx H1), (IH H2). reflexivity.
  - simpl. intros H. apply andb_prop in H as [Hnd Hf]. f_equal.
    apply keys_nodupb_spec in Hnd.
    apply clean_entries_fixed. intros k v Hin.
    rewrite forallb_forall in Hf. specialize (Hf (k, v) Hin). simpl in Hf.
    apply andb_prop in Hf as [Hs Hc]. apply negb_true_iff in Hs.
    rewrite Forall_forall in Hall. specialize (Hall (k, v) Hin). simpl in Hall.
    split; [exact Hs|split; [exact (Hall Hc)|exact (lookup_in_nodup _ _ _ Hnd Hin)]].
  - intros _. destruct q; try reflexivity.
    + exfalso; eapply Ha; reflexivity.
    + exfalso; eapply Ho; reflexivity.
Qed.

Lemma cleanQuery_clean_form_id_witness :
  cleanQuery (JObj [("status", JStr "paid"); ("created", JObj [("gt", JNum 5)])]) =
    JObj [("status", JStr "paid"); ("created", JObj [("gt", JNum 5)])].
Proof. apply cleanQuery_clean_form_id. reflexivity. Defined.

(** X6: [cleanQuery] never invents a key: every top-level key of the
    normalized object is an input key or an input key with its leading
    ['$'] removed. *)
Theorem cleanQuery_keys_from_input (props : obj) (x : string) (w : jv) :
  jlookup (cleanQuery (JObj props)) x = Some w ->
  exists k, In k (map fst props) /\ (k = x \/ clean_key k = x).
Proof.
  intros H.
  destruct (existsb (fun k => String.eqb k x || String.eqb (clean_key k) x) (map fst props)) eqn:E.
  - apply existsb_exists in E as [k [Hk Hb]]. exists k. split; [exact Hk|].
    apply orb_prop in Hb as [Hb|Hb]; apply String.eqb_eq in Hb; tauto.
  - exfalso.
    assert (Hno : forall k, In k (map fst props) -> k <> x /\ clean_key k <> x).
    { intros k Hk.
      assert (Hb : (String.eqb k x || String.eqb (clean_key k) x) = false).
      { destruct (String.eqb k x || String.eqb (clean_key k) x) eqn:Eb; [|reflexivity].
        assert (existsb (fun k => String.eqb k x || String.eqb (clean_key k) x) (map fst props) = true)
          by (apply existsb_exists; exists k; split; assumption).
        congruence. }
      apply orb_false_iff in Hb as [H1 H2].
      split; intros Heq;
        [rewrite Heq, String.eqb_refl in H1 | rewrite Heq, String.eqb_refl in H2]; discriminate. }
    simpl in H.
    rewrite clean_entries_lookup_absent in H; [discriminate| |].
    + intros k v Hin. apply (Hno k). apply (in_map fst _ (k, v)). exact Hin.
    + apply obj_lookup_notin. intros Hin. exact (proj1 (Hno x Hin) eq_refl).
Qed.

Lemma cleanQuery_keys_from_input_witness :
  exists k, In k (map fst [("$limit", JNum 25)]) /\ (k = "limit" \/ clean_key k = "limit").
Proof. apply (cleanQuery_keys_from_input [("$limit", JNum 25)] "limit" (JNum 25)). reflexivity. Defined.

(** X7: in an object with distinct keys, a key without ['$'] keeps its
    (normalized) value when no other key strips to it; a ['$']-key is
    removed from the output when no key strips to it. *)
Theorem cleanQuery_keeps_and_removes (props : obj) :
  NoDup (map fst props) ->
  (forall k v, In (k, v) props -> starts_dollar k = false ->
     (forall k2 v2, In (k2, v2) props -> k2 <> k -> clean_key k2 <> k) ->
     jlookup (cleanQuery (JObj props)) k = Some (cleanQuery v)) /\
  (forall r v, In (String "$" r, v) props ->
     (forall k2 v2, In (k2, v2) props -> clean_key k2 <> String "$" r) ->
     jlookup (cleanQuery (JObj props)) (String "$" r) = None).
Proof.
  intros Hnd. split.
  - intros k v Hin Hs Hother. simpl.
    apply (clean_entries_lookup_entry cleanQuery k k v props Hnd Hin (clean_key_plain k Hs)).
    intros k2 v2 Hin2 Hne. split; [exact Hne|exact (Hother k2 v2 Hin2 Hne)].
  - intros r v Hin Hother. simpl.
    destruct (in_split _ _ Hin) as (pre & post & Hsplit).
    rewrite Hsplit at 1. rewrite clean_entries_app; simpl.
    apply clean_entries_lookup_absent.
    + intros k2 v2 Hin2. apply (Hother k2 v2).
      rewrite Hsplit. apply in_or_app. right. right. exact Hin2.
    + rewrite clean_step_lookup, clean_key_dollar.
      destruct (String.eqb_spec (String "$" r) r) as [E|_]; [exfalso; exact (dollar_key_neq r E)|].
      simpl. rewrite String.eqb_refl. reflexivity.
Qed.

Lemma cleanQuery_keeps_and_removes_witness :
  jlookup (cleanQuery (JObj [("$limit", JNum 25); ("status", JStr "paid")])) "status"
    = Some (JStr "paid") /\
  jlookup (cleanQuery (JObj [("$limit", JNum 25); ("status", JStr "paid")])) "$limit" = None.
Proof.
  assert (Hnd : NoDup (map fst [("$limit", JNum 25); ("status", JStr "paid")]))
    by (simpl; repeat constructor; simpl; intuition discriminate).
  destruct (cleanQuery_keeps_and_removes _ Hnd) as [H1 H2]. split.
  - apply (H1 "status" (JStr "paid")); [simpl; tauto|reflexivity|].
    intros k2 v2 Hin Hne; simpl in Hin.
    destruct Hin as [Hin|[Hin|[]]]; injection Hin as <- <-; [discriminate|contradiction].
  - apply (H2 "limit" (JNum 25)); [simpl; tauto|].
    intros k2 v2 Hin; simpl in Hin.
    destruct Hin as [Hin|[Hin|[]]]; injection Hin as <- <-; discriminate.
Defined.

(** ** Verb dispatch and error translation *)

(** X8: each adapter verb [$find], [$get], [$create], [$update],
    [$remove] throws [NotImplemented('<Verb> method not implemented')]
    when the service lacks the underscore method, and otherwise throws
    synchronously exactly when the underscore method does (the same
    error); when the underscore method returns a promise, a resolved result
    is returned unchanged, a rejection with an error object stays a
    rejection, and a rejection with [null] or [undefined] becomes a
    [TypeError] rejection (reading [error.type] fails inside
    [handleError]). *)
Theorem dollar_verb_spec :
  (forall verb args,
     dollar_verb verb None args =
       Throw (FErr NotImplemented (JStr (verb ++ " method not implemented")) JUndef)) /\
  (forall verb f args e, dollar_verb verb (Some f) args = Throw e <-> f args = Throw e) /\
  (forall verb f args v, f args = Return (Resolved v) ->
     dollar_verb verb (Some f) args = Return (Resolved v)) /\
  (forall verb f args props, f args = Return (Rejected (Raw (JObj props))) ->
     exists e, dollar_verb verb (Some f) args = Return (Rejected e)) /\
  (forall verb f args u, f args = Return (Rejected (Raw u)) -> (u = JUndef \/ u = JNull) ->
     dollar_verb verb (Some f) args = Return (Rejected TypeErr)) /\
  (forall s args, dollar_update s args = dollar_verb "Update" (lift_method (m_update s)) args).
Proof.
  split; [|split; [|split; [|split; [|split]]]].
  - reflexivity.
  - intros verb f args e; unfold dollar_verb; destruct (f args); split; intros H;
      try discriminate; exact H.
  - intros verb f args v Hf; unfold dollar_verb; rewrite Hf; reflexivity.
  - intros verb f args props Hf; unfold dollar_verb; rewrite Hf; simpl.
    unfold handleError; simpl.
    destruct (truthy (obj_get props "type"));
      [destruct (stripe_error_class (obj_get props "type"))|]; eexists; reflexivity.
  - intros verb f args u Hf [-> | ->]; unfold dollar_verb; rewrite Hf; reflexivity.
  - intros s args; unfold dollar_update; destruct (m_update s); reflexivity.
Qed.

Lemma dollar_verb_spec_witness :
  dollar_find (Some (fun _ => Return (Rejected (Raw JUndef)))) [] = Return (Rejected TypeErr) /\
  dollar_get (Some (fun _ => Return (Resolved (JNum 1)))) [JStr "id"] = Return (Resolved (JNum 1)) /\
  dollar_create (Some (fun _ => Throw TypeErr)) [] = Throw TypeErr.
Proof.
  destruct dollar_verb_spec as (_ & H2 & H3 & _ & H5 & _).
  split; [|split].
  - apply (H5 "Find" (fun _ => Return (Rejected (Raw JUndef))) [] JUndef);
      [reflexivity|left; reflexivity].
  - apply (H3 "Get" (fun _ => Return (Resolved (JNum 1))) [JStr "id"] (JNum 1)); reflexivity.
  - apply (proj2 (H2 "Create" (fun _ => Throw TypeErr) [] TypeErr)); reflexivity.
Defined.

(** X9: [handleError] rewraps every feathers error (whose [type] is
    ['FeathersError']) as a [GeneralError] "Unknown Payment Gateway Error";
    a plain [Error] or a [TypeError] passes through unchanged.  So a
    [MethodNotAllowed] rejection from [handlePaginate] that reaches an
    adapter verb surfaces as a [GeneralError]. *)
Theorem handleError_own_errors :
  (forall c msg d, exists d',
     handleError (FErr c msg d) =
       Return (Rejected (FErr GeneralError (JStr "Unknown Payment Gateway Error") d'))) /\
  (forall msg, handleError (PlainError msg) = Return (Rejected (PlainError msg))) /\
  handleError TypeErr = Return (Rejected TypeErr) /\
  (forall verb f args sm, sm_autoPagingEach sm = None ->
     f args = handlePaginate (JBool false) sm ->
     exists d', dollar_method verb (Some f) args =
       Return (Rejected (FErr GeneralError (JStr "Unknown Payment Gateway Error") d'))).
Proof.
  split; [|split; [|split]].
  - intros c msg d; eexists; reflexivity.
  - intros msg; reflexivity.
  - reflexivity.
  - intros verb f args sm Hsm Hf. unfold dollar_method, dollar_verb, lift_method. rewrite Hf.
    unfold handlePaginate; simpl. rewrite Hsm. eexists; reflexivity.
Qed.

Lemma handleError_own_errors_witness :
  exists d', dollar_method "Find" (Some (fun _ => handlePaginate (JBool false) (mkStripeMethod (Resolved JNull) None))) [] =
    Return (Rejected (FErr GeneralError (JStr "Unknown Payment Gateway Error") d')).
Proof.
  apply (proj2 (proj2 (proj2 handleError_own_errors)) "Find"
           (fun _ => handlePaginate (JBool false) (mkStripeMethod (Resolved JNull) None)) []
           (mkStripeMethod (Resolved JNull) None)); reflexivity.
Defined.



(** ** Construction, further *)

(** X11: a constructed adapter's [paginate] option is the caller's
    [options.paginate] when given (even [false]), else Stripe's
    [{ default: 10, max: 100 }]; its client is the given [stripe] handle
    when truthy (the [secretKey] is then unused), else one built from the
    [secretKey]. *)
Theorem adapter_ctor_instance (options : obj) (i : instance) :
  NoDup (map fst options) -> adapter_ctor options = CtorOk i ->
  obj_get (inst_options i) "paginate" =
    match obj_lookup "paginate" options with
    | Some v => v
    | None => JObj [("default", JNum 10); ("max", JNum 100)]
    end /\
  inst_stripe i = if truthy (obj_get options "stripe") then Handle (obj_get options "stripe")
                  else FromKey (obj_get options "secretKey").
Proof.
  intros Hnd Hc.
  assert (Hget : forall k, obj_get (spread [("paginate", JObj [("default", JNum 10); ("max", JNum 100)])] options) k
                  = match obj_lookup k options with
                    | Some v => v
                    | None => obj_get [("paginate", JObj [("default", JNum 10); ("max", JNum 100)])] k
                    end).
  { intros k. unfold obj_get at 1. rewrite spread_lookup, obj_lookup_rev by exact Hnd.
    destruct (obj_lookup k options); reflexivity. }
  unfold adapter_ctor in Hc.
  destruct (negb _ && negb _); [discriminate|].
  injection Hc as <-. simpl. split.
  - rewrite Hget. reflexivity.
  - rewrite !Hget. unfold obj_get. simpl. reflexivity.
Qed.

Lemma adapter_ctor_instance_witness :
  obj_get (inst_options (mkInstance (FromKey (JStr "sk_test"))
            (spread [("paginate", JObj [("default", JNum 10); ("max", JNum 100)])]
                    [("secretKey", JStr "sk_test")]))) "paginate"
    = JObj [("default", JNum 10); ("max", JNum 100)].
Proof.
  apply (proj1 (adapter_ctor_instance [("secretKey", JStr "sk_test")] _
                  ltac:(repeat constructor; simpl; tauto) eq_refl)).
Defined.

(** X12: a constructed legacy service (transfers, orders) discards any
    [paginate] option, setting it to [{}] on the caller's options object,
    keeps every other option, and builds its client from the
    [secretKey]. *)
Theorem legacy_ctor_instance (options : obj) (i : instance) :
  legacy_ctor options = CtorOk i ->
  obj_get (inst_options i) "paginate" = JObj [] /\
  (forall k, k <> "paginate" -> obj_lookup k (inst_options i) = obj_lookup k options) /\
  inst_stripe i = FromKey (obj_get options "secretKey").
Proof.
  unfold legacy_ctor. destruct (negb _); [discriminate|].
  intros Hc; injection Hc as <-; simpl.
  split; [|split].
  - unfold obj_get. rewrite obj_lookup_set, String.eqb_refl. reflexivity.
  - intros k Hk. rewrite obj_lookup_set.
    destruct (String.eqb_spec k "paginate"); [contradiction|reflexivity].
  - reflexivity.
Qed.

Lemma legacy_ctor_instance_witness :
  obj_get (inst_options (mkInstance (FromKey (JStr "sk_test"))
            (obj_set "paginate" (JObj []) [("secretKey", JStr "sk_test"); ("paginate", JObj [("max", JNum 50)])])))
          "paginate" = JObj [].
Proof.
  apply (proj1 (legacy_ctor_instance [("secretKey", JStr "sk_test"); ("paginate", JObj [("max", JNum 50)])] _ eq_refl)).
Defined.
